(** * AgentHub client: a shallow embedding of [agenthub/client.py]

    The client is one class, [AgentHub], with a constructor and two
    coroutines, [find_agent] and [create_session].  Each coroutine makes
    one request through the aiohttp session stored in [self._http], reads
    the JSON body inside an [async with] block and subscripts it.

    Python values are embedded as the JSON-shaped fragment of the language,
    exceptions as an error outcome, and the effects (the client object, the
    objects the caller owns, the requests put on the wire, the response
    objects and their release) as a state threaded through a state and
    exception monad. *)

From stdpp Require Import gmap strings list fin_maps.

#[local] Set Warnings "-register-all".
#[local] Open Scope string_scope.
#[local] Open Scope list_scope.
#[local] Open Scope Z_scope.

(** ** Python values *)

(** What [json.loads] can produce, which is also what a caller can pass as a
    JSON-serialisable agent mapping.  A [str] is a [string] with one
    character per code point, so it stands for a str of code points below
    256, and no theorem depends on which character a subscription of a
    str gives; a [float] is kept as its binary64 bit pattern;
    a [dict] is a finite map on [str] keys, so that two dicts with the same
    items are equal, as in Python. *)
Inductive pyval : Type :=
  | PNone
  | PBool (b : bool)
  | PInt (n : Z)
  | PFloat (bits : Z)
  | PStr (s : string)
  | PList (items : list pyval)
  | PDict (items : gmap string pyval).

(** ** Exceptions *)

(** [KeyError] carries the key that was looked up.  [TransportError] and
    [ParseError] are the two classes of failure of the HTTP collaborator:
    the request could not be completed, or the body is not JSON. *)
Inductive exn : Type :=
  | KeyError (key : pyval)
  | IndexError
  | TypeError
  | SystemError
  | TransportError
  | ParseError.

(** [issubclass(type(e), KeyError)] *)
Definition is_KeyError (e : exn) : bool :=
  match e with
  | KeyError _ => true
  | _ => false
  end.

(** [issubclass(type(e), LookupError)]: [KeyError] and [IndexError] are the
    two subclasses of [LookupError]. *)
Definition is_LookupError (e : exn) : bool :=
  match e with
  | KeyError _ | IndexError => true
  | _ => false
  end.

(** The outcome of evaluating an expression or of a call. *)
Inductive outcome (A : Type) : Type :=
  | Return (a : A)
  | Raise (e : exn).
Arguments Return {A} a.
Arguments Raise {A} e.

(** Sequencing of expressions: the first exception ends the evaluation. *)
#[export] Instance outcome_ret : MRet outcome := fun A a => Return a.

#[export] Instance outcome_bind : MBind outcome := fun A B f o =>
  match o with
  | Return a => f a
  | Raise e => Raise e
  end.

(** ** Subscription, [o[k]] *)

(** The subscripts the client uses are a [str] constant or an [int]
    constant. *)
Inductive subscript : Type :=
  | SStr (k : string)
  | SInt (i : Z).

(** Indexing a sequence: a negative index counts from the end, once. *)
Definition seq_index {A : Type} (l : list A) (i : Z) : option A :=
  let n := Z.of_nat (length l) in
  let j := if i <? 0 then i + n else i in
  if (j <? 0) || (n <=? j) then None else l !! Z.to_nat j.

Definition getitem (o : pyval) (k : subscript) : outcome pyval :=
  match o, k with
  | PDict d, SStr key =>
      match d !! key with
      | Some v => Return v
      | None => Raise (KeyError (PStr key))
      end
  | PDict _, SInt i => Raise (KeyError (PInt i))
  | PList l, SInt i =>
      match seq_index l i with
      | Some v => Return v
      | None => Raise IndexError
      end
  | PList _, SStr _ => Raise TypeError
  | PStr s, SInt i =>
      match seq_index (String.list_ascii_of_string s) i with
      | Some c => Return (PStr (String c EmptyString))
      | None => Raise IndexError
      end
  | PStr _, SStr _ => Raise TypeError
  | _, _ => Raise TypeError
  end.

(** ** The HTTP collaborator *)

(** An [aiohttp.ClientSession] object, by identity. *)
Definition ClientSession : Type := nat.

(** What [self._http.get(url, params=...)] and
    [self._http.post(url, json=...)] ask for. *)
Inductive request : Type :=
  | GET (url : string) (params : pyval)
  | POST (url : string) (json : pyval).

(** The body of a response: [resp.json()] either parses it to a value or
    fails. *)
Inductive payload : Type :=
  | Malformed
  | Json (data : pyval).

(** What comes back for a request: no response at all (connection refused,
    timeout, ...), or a response with a body. *)
Inductive reply : Type :=
  | Refused
  | Answered (body : payload).

(** [json.loads] on a body, as [resp.json()] does. *)
Definition parse (body : payload) : outcome pyval :=
  match body with
  | Malformed => Raise ParseError
  | Json data => Return data
  end.

(** The far side of a session.  The reply may depend on the session, on
    everything that was sent before, and on the request. *)
Definition transport : Type :=
  ClientSession -> list (ClientSession * request) -> request -> reply.

(** A response object: its slot in the table of responses and its body. *)
Record ClientResponse : Type := {
  resp_id : nat;
  json_data : payload;
}.

(** ** State *)

(** The client object: its only attribute is [_http]. *)
Record AgentHub : Type := {
  _http : ClientSession;
}.

(** A reference to an object owned by the caller. *)
Definition ref : Type := nat.

(** Everything a call can read or change:
    - [self], the client object;
    - [objects], the objects the caller holds references to;
    - [sessions], how many [ClientSession] objects exist;
    - [sent], the requests put on the wire, oldest first;
    - [released], one flag per response object acquired so far, set when
      the response is released. *)
Record world : Type := {
  self : AgentHub;
  objects : gmap ref pyval;
  sessions : nat;
  sent : list (ClientSession * request);
  released : list bool;
}.

Definition set_self (c : AgentHub) (w : world) : world :=
  {| self := c; objects := objects w; sessions := sessions w;
     sent := sent w; released := released w |}.

Definition set_sessions (n : nat) (w : world) : world :=
  {| self := self w; objects := objects w; sessions := n;
     sent := sent w; released := released w |}.

Definition set_sent (l : list (ClientSession * request)) (w : world) : world :=
  {| self := self w; objects := objects w; sessions := sessions w;
     sent := l; released := released w |}.

Definition set_released (l : list bool) (w : world) : world :=
  {| self := self w; objects := objects w; sessions := sessions w;
     sent := sent w; released := l |}.

(** ** The monad of calls *)

Definition M (A : Type) : Type := world -> outcome A * world.

#[export] Instance M_ret : MRet M := fun A a w => (Return a, w).

#[export] Instance M_bind : MBind M := fun A B f m w =>
  match m w with
  | (Return a, w') => f a w'
  | (Raise e, w') => (Raise e, w')
  end.

(** An expression without effects. *)
Definition eval {A : Type} (o : outcome A) : M A := fun w => (o, w).

(** [self._http] *)
Definition self_http : M ClientSession :=
  fun w => (Return (_http (self w)), w).

(** Following a reference of the caller.  Python has no dangling
    references; the model answers [SystemError] for one. *)
Definition deref (r : ref) : M pyval := fun w =>
  match objects w !! r with
  | Some v => (Return v, w)
  | None => (Raise SystemError, w)
  end.

(** [self._http = http] *)
Definition assign_self_http (http : ClientSession) : M unit :=
  fun w => (Return tt, set_self {| _http := http |} w).

(** [try: m finally: cleanup], where [cleanup] is the [__aexit__] of a
    context manager that does not swallow exceptions: [cleanup] runs
    whatever the outcome of [m], which is then the outcome of the whole,
    unless [cleanup] itself raises. *)
Definition finally {A : Type} (m : M A) (cleanup : M unit) : M A := fun w =>
  let (o, w1) := m w in
  match cleanup w1 with
  | (Return _, w2) => (o, w2)
  | (Raise e, w2) => (Raise e, w2)
  end.

(** [aiohttp.ClientSession()] *)
Definition new_ClientSession : M ClientSession :=
  fun w => (Return (sessions w), set_sessions (S (sessions w)) w).

Section Client.

Context (net : transport).

(** Entering the context manager of a request: the request goes out, and
    either it fails or a response object is acquired, not yet released. *)
Definition aenter (http : ClientSession) (req : request) : M ClientResponse :=
  fun w =>
    let w1 := set_sent (sent w ++ [(http, req)]) w in
    match net http (sent w) req with
    | Refused => (Raise TransportError, w1)
    | Answered body =>
        (Return {| resp_id := length (released w); json_data := body |},
         set_released (released w ++ [false]) w1)
    end.

(** Leaving it: the response is released.  [__aexit__] returns [None], so
    an exception of the block is not swallowed. *)
Definition aexit (resp : ClientResponse) : M unit :=
  fun w => (Return tt, set_released (<[resp_id resp := true]> (released w)) w).

(** [await resp.json()] *)
Definition resp_json (resp : ClientResponse) : M pyval :=
  eval (parse (json_data resp)).

(** [async with http.<method>(...) as resp: block]: [__aexit__] runs on
    every way out of the block, and the outcome of the block is the
    outcome of the statement. *)
Definition async_with {A : Type} (http : ClientSession) (req : request)
    (block : ClientResponse -> M A) : M A :=
  resp ← aenter http req;
  finally (block resp) (aexit resp).

(** [self._http = http_client or aiohttp.ClientSession()] *)
Definition __init__ (http_client : option ClientSession) : M unit :=
  http ← match http_client with
         | Some http => mret http
         | None => new_ClientSession
         end;
  assign_self_http http.

(** [[
    async with self._http.get("/agents", params={"name": name}) as resp:
        data = await resp.json()
        return data["agents"][0]
    ]] *)
Definition find_agent (name : string) : M pyval :=
  http ← self_http;
  async_with http (GET "/agents" (PDict {["name" := PStr name]})) (fun resp =>
    data ← resp_json resp;
    agents ← eval (getitem data (SStr "agents"));
    eval (getitem agents (SInt 0))).

(** [[
    async with self._http.post("/sessions", json={"agent_id": agent["id"]}) as resp:
        data = await resp.json()
        return data["session"]
    ]]
    The arguments of [post] are evaluated before the call, so [agent["id"]]
    is looked up before anything is sent. *)
Definition create_session (agent : ref) : M pyval :=
  http ← self_http;
  mapping ← deref agent;
  agent_id ← eval (getitem mapping (SStr "id"));
  async_with http (POST "/sessions" (PDict {["agent_id" := agent_id]})) (fun resp =>
    data ← resp_json resp;
    eval (getitem data (SStr "session"))).

End Client.

(** ** The acceptance test's transport and data ([tests/test_client.py]) *)

Definition mock_agent : pyval :=
  PDict (<["id" := PStr "test-agent-1"]>
        (<["name" := PStr "gpt4"]>
        (<["capabilities" := PList [PStr "chat"; PStr "completion"]]> ∅))).

Definition mock_session : pyval :=
  PDict (<["id" := PStr "test-session-1"]>
        (<["agent_id" := PStr "test-agent-1"]>
        (<["status" := PStr "active"]> ∅))).

(** The transport that [MockClientSession(responses)] is written to stand
    for, by the two responses it builds:
    [MockResponse(self.responses.get("get", {}))] for [get] and
    [MockResponse(self.responses.get("post", {}))] for [post], whatever
    the arguments.  It serves as a concrete answering transport; the
    theorems are about every transport. *)
Definition MockClientSession (responses : gmap string pyval) : transport :=
  fun _ _ req =>
    match req with
    | GET _ _ => Answered (Json (default (PDict ∅) (responses !! "get")))
    | POST _ _ => Answered (Json (default (PDict ∅) (responses !! "post")))
    end.

Definition responses : gmap string pyval :=
  <["get" := PDict {["agents" := PList [mock_agent]]}]>
  (<["post" := PDict {["session" := mock_session]}]> ∅).

(** The world of the test after [hub = AgentHub(http_client=http_client)],
    with the agent mapping the caller holds at reference 0. *)
Definition test_world (agent : pyval) : world :=
  {| self := {| _http := 0%nat |};
     objects := {[ 0%nat := agent ]};
     sessions := 1;
     sent := [];
     released := [] |}.

(** A transport on which every request fails, and one that answers every
    request with the same body. *)
Definition refusing : transport := fun _ _ _ => Refused.

Definition answering (body : payload) : transport := fun _ _ _ => Answered body.

(** "The value lacks a [key] field", as the words stand: the value is not
    an object with an entry at [key].  A value that is not an object has
    no fields, so it lacks every one. *)
Definition lacks_field (data : pyval) (key : string) : Prop :=
  match data with
  | PDict d => d !! key = None
  | _ => True
  end.

(** ** Callers *)

Definition set_objects (o : gmap ref pyval) (w : world) : world :=
  {| self := self w; objects := o; sessions := sessions w;
     sent := sent w; released := released w |}.

(** [x = value] in the caller: the value becomes an object the caller
    holds, under a reference that was not in use. *)
Definition new_object (v : pyval) : M ref := fun w =>
  let r := fresh (dom (objects w)) in
  (Return r, set_objects (<[r := v]> (objects w)) w).

(** One call of a coroutine of the client. *)
Inductive call : Type :=
  | FindAgent (name : string)
  | CreateSession (agent : ref).

Section Callers.

Context (net : transport).

(** The three calls of the acceptance test ([tests/test_client.py]):
    [[
    hub = AgentHub(http_client=http_client)
    agent = await hub.find_agent(name="gpt4")
    session = await hub.create_session(agent)
    ]]
    for any session and any name, with the agent and the session as the
    value. *)
Definition discover_and_create (http_client : ClientSession) (name : string)
    : M (pyval * pyval) :=
  _ ← __init__ (Some http_client);
  agent ← find_agent net name;
  agent_ref ← new_object agent;
  session ← create_session net agent_ref;
  mret (agent, session).

Definition run_call (c : call) : M pyval :=
  match c with
  | FindAgent name => find_agent net name
  | CreateSession agent => create_session net agent
  end.

(** A caller that makes calls one after the other on the same client and
    goes on whatever each of them returns or raises: the world after the
    last call. *)
Fixpoint run_calls (cs : list call) (w : world) : world :=
  match cs with
  | [] => w
  | c :: cs' => run_calls cs' (run_call c w).2
  end.

End Callers.

Example getitem_negative :
  getitem (PList [PInt 1; PInt 2; PInt 3]) (SInt (-1)) = Return (PInt 3).
Proof. reflexivity. Qed.

Example getitem_str :
  getitem (PStr "gpt4") (SInt 0) = Return (PStr "g").
Proof. reflexivity. Qed.

Example init_with_session (w : world) :
  __init__ (Some 7%nat) w = (Return tt, set_self {| _http := 7%nat |} w).
Proof. reflexivity. Qed.

Example init_without_session (w : world) :
  __init__ None w
  = (Return tt,
     set_self {| _http := sessions w |} (set_sessions (S (sessions w)) w)).
Proof. reflexivity. Qed.

Example test_find_agent :
  fst (find_agent (MockClientSession responses) "gpt4" (test_world PNone))
  = Return mock_agent.
Proof. reflexivity. Qed.

Example test_create_session :
  create_session (MockClientSession responses) 0%nat (test_world mock_agent)
  = (Return mock_session,
     set_released [true]
       (set_sent [(0%nat, POST "/sessions" (PDict {["agent_id" := PStr "test-agent-1"]}))]
          (test_world mock_agent))).
Proof. reflexivity. Qed.

(** ** Running the two coroutines *)

(** Releasing the response that was acquired last closes its slot and
    leaves the earlier ones as they are. *)
Lemma release_last (flags : list bool) :
  <[length flags := true]> (flags ++ [false]) = flags ++ [true].
Proof.
  replace (length flags) with (length flags + 0)%nat by lia.
  by rewrite insert_app_r.
Qed.

Lemma bind_run {A B : Type} (m : M A) (f : A -> M B) (w : world) :
  (m ≫= f) w = match m w with
               | (Return a, w') => f a w'
               | (Raise e, w') => (Raise e, w')
               end.
Proof. reflexivity. Qed.

Lemma bind_eval {A B : Type} (o : outcome A) (f : A -> M B) (w : world) :
  (eval o ≫= f) w = match o with
                    | Return a => f a w
                    | Raise e => (Raise e, w)
                    end.
Proof. by destruct o. Qed.

Section Properties.

Context (net : transport).
Implicit Types (w : world) (name : string) (agent : ref).

(** [async with] around a block that only evaluates expressions on the
    body of the response: one request goes out; if it is answered, the
    response is acquired, the block runs and the response is released. *)
Lemma async_with_run {A : Type} (http : ClientSession) (req : request)
    (block : ClientResponse -> M A) (value : payload -> outcome A) w :
  (forall resp w', block resp w' = (value (json_data resp), w')) ->
  async_with net http req block w =
  match net http (sent w) req with
  | Refused =>
      (Raise TransportError,
       {| self := self w; objects := objects w; sessions := sessions w;
          sent := sent w ++ [(http, req)]; released := released w |})
  | Answered body =>
      (value body,
       {| self := self w; objects := objects w; sessions := sessions w;
          sent := sent w ++ [(http, req)];
          released := released w ++ [true] |})
  end.
Proof.
  intros Hblock. unfold async_with, mbind, M_bind, aenter, finally.
  destruct (net http (sent w) req) as [|body]; [done|].
  rewrite Hblock. cbn. by rewrite release_last.
Qed.

Lemma find_agent_run name w :
  find_agent net name w =
  let http := _http (self w) in
  let req := GET "/agents" (PDict {["name" := PStr name]}) in
  match net http (sent w) req with
  | Refused =>
      (Raise TransportError,
       {| self := self w; objects := objects w; sessions := sessions w;
          sent := sent w ++ [(http, req)]; released := released w |})
  | Answered body =>
      (data ← parse body;
       agents ← getitem data (SStr "agents");
       getitem agents (SInt 0),
       {| self := self w; objects := objects w; sessions := sessions w;
          sent := sent w ++ [(http, req)];
          released := released w ++ [true] |})
  end.
Proof.
  unfold find_agent. rewrite bind_run. cbn [self_http].
  apply async_with_run. intros resp w'. unfold resp_json.
  rewrite bind_eval. destruct (parse (json_data resp)) as [data|e]; [|done].
  rewrite bind_eval. cbn. by destruct (getitem data (SStr "agents")).
Qed.

Lemma create_session_run agent w :
  create_session net agent w =
  let http := _http (self w) in
  match objects w !! agent with
  | None => (Raise SystemError, w)
  | Some mapping =>
      match getitem mapping (SStr "id") with
      | Raise e => (Raise e, w)
      | Return agent_id =>
          let req := POST "/sessions" (PDict {["agent_id" := agent_id]}) in
          match net http (sent w) req with
          | Refused =>
              (Raise TransportError,
               {| self := self w; objects := objects w;
                  sessions := sessions w;
                  sent := sent w ++ [(http, req)];
                  released := released w |})
          | Answered body =>
              (data ← parse body; getitem data (SStr "session"),
               {| self := self w; objects := objects w;
                  sessions := sessions w;
                  sent := sent w ++ [(http, req)];
                  released := released w ++ [true] |})
          end
      end
  end.
Proof.
  unfold create_session. rewrite bind_run. cbn [self_http].
  rewrite bind_run. unfold deref at 1.
  destruct (objects w !! agent) as [mapping|]; [|done].
  rewrite bind_eval.
  destruct (getitem mapping (SStr "id")) as [agent_id|e]; [|done].
  apply async_with_run. intros resp w'. unfold resp_json.
  rewrite bind_eval. by destruct (parse (json_data resp)).
Qed.


(** ** [find_agent] *)

(** C1. For every name, [find_agent name] puts exactly one request on the
    wire, a GET of ["/agents"] with [{"name": name}] as query parameters,
    whatever comes back; and when the body of the response parses to an
    object whose ["agents"] entry is a non-empty array, the call returns
    the first element of that array as it is. *)
Theorem find_agent_first_agent name w :
  let http := _http (self w) in
  let req := GET "/agents" (PDict {["name" := PStr name]}) in
  sent (find_agent net name w).2 = sent w ++ [(http, req)] ∧
  ∀ (d : gmap string pyval) (first : pyval) (rest : list pyval),
    net http (sent w) req = Answered (Json (PDict d)) →
    d !! "agents" = Some (PList (first :: rest)) →
    (find_agent net name w).1 = Return first.
Proof.
  intros http req. rewrite find_agent_run. cbv zeta. fold http req. split.
  - by destruct (net http (sent w) req).
  - intros d first rest -> Hagents. cbn. by rewrite Hagents.
Qed.

(** C4. When the body of the response parses to an object whose ["agents"]
    entry is an empty array, or which has no ["agents"] entry,
    [find_agent] returns no value: it raises, and the exception is the one
    of the subscription itself ([IndexError] for the empty array,
    [KeyError('agents')] for the missing key), both of class
    [LookupError]. *)
Theorem find_agent_no_agents name w (d : gmap string pyval) :
  net (_http (self w)) (sent w) (GET "/agents" (PDict {["name" := PStr name]}))
    = Answered (Json (PDict d)) →
  d !! "agents" = Some (PList []) ∨ d !! "agents" = None →
  ∃ e : exn,
    (find_agent net name w).1 = Raise e ∧
    is_LookupError e = true ∧
    (agents ← getitem (PDict d) (SStr "agents"); getitem agents (SInt 0))
      = Raise e ∧
    (d !! "agents" = Some (PList []) → e = IndexError) ∧
    (d !! "agents" = None → e = KeyError (PStr "agents")).
Proof.
  intros Hnet Hagents. rewrite find_agent_run. cbv zeta. rewrite Hnet.
  destruct Hagents as [Hempty|Habsent].
  - exists IndexError. cbn. rewrite Hempty. cbn.
    split_and!; [done..|congruence].
  - exists (KeyError (PStr "agents")). cbn. rewrite Habsent. cbn.
    split_and!; [done..|congruence|done].
Qed.

(** ** [create_session] *)

(** C2. For every agent mapping with an ["id"] entry, [create_session agent]
    puts exactly one request on the wire, a POST of ["/sessions"] whose JSON
    body is [{"agent_id": agent["id"]}]; and when the body of the response
    parses to an object with a ["session"] entry, the call returns that
    entry as it is. *)
Theorem create_session_returns_session agent w
    (d : gmap string pyval) (agent_id : pyval) :
  objects w !! agent = Some (PDict d) →
  d !! "id" = Some agent_id →
  let http := _http (self w) in
  let req := POST "/sessions" (PDict {["agent_id" := agent_id]}) in
  sent (create_session net agent w).2 = sent w ++ [(http, req)] ∧
  ∀ (b : gmap string pyval) (session : pyval),
    net http (sent w) req = Answered (Json (PDict b)) →
    b !! "session" = Some session →
    (create_session net agent w).1 = Return session.
Proof.
  intros Hagent Hid http req. rewrite create_session_run, Hagent.
  cbn. rewrite Hid. cbv zeta. fold http req. split.
  - by destruct (net http (sent w) req).
  - intros b session -> Hsession. cbn. by rewrite Hsession.
Qed.

(** C3. When the agent mapping has no ["id"] entry, [create_session] raises
    [KeyError('id')] while it builds the body of the request: the world
    after the call is the world before it, so nothing was put on the wire
    and no response was acquired. *)
Theorem create_session_missing_id_sends_nothing agent w
    (d : gmap string pyval) :
  objects w !! agent = Some (PDict d) →
  d !! "id" = None →
  create_session net agent w = (Raise (KeyError (PStr "id")), w) ∧
  sent (create_session net agent w).2 = sent w.
Proof.
  intros Hagent Hid. rewrite create_session_run, Hagent. cbn.
  by rewrite Hid.
Qed.

(** C5. Amended.  For an agent mapping, [create_session] raises an
    exception of class [KeyError] exactly when the mapping has no ["id"]
    entry, or the request was answered with an object that has no
    ["session"] entry; the exception is then the one of the failed lookup,
    [KeyError('id')] or [KeyError('session')], as raised. *)
Theorem create_session_KeyError_iff agent w (d : gmap string pyval) :
  objects w !! agent = Some (PDict d) →
  let http := _http (self w) in
  let req agent_id := POST "/sessions" (PDict {["agent_id" := agent_id]}) in
  let lacks_id := d !! "id" = None in
  let lacks_session :=
    ∃ (agent_id : pyval) (b : gmap string pyval),
      d !! "id" = Some agent_id ∧
      net http (sent w) (req agent_id) = Answered (Json (PDict b)) ∧
      b !! "session" = None in
  ((∃ e : exn, (create_session net agent w).1 = Raise e ∧ is_KeyError e = true)
     ↔ lacks_id ∨ lacks_session) ∧
  (lacks_id → (create_session net agent w).1 = Raise (KeyError (PStr "id"))) ∧
  (lacks_session →
     (create_session net agent w).1 = Raise (KeyError (PStr "session"))).
Proof.
  intros Hagent http req lacks_id lacks_session.
  rewrite create_session_run, Hagent. cbn. subst lacks_id lacks_session.
  destruct (d !! "id") as [agent_id|] eqn:Hid.
  - fold http (req agent_id). split; [split|split].
    + intros (e & Hraise & Hclass). right. exists agent_id.
      destruct (net http (sent w) (req agent_id)) as [|[|data]];
        cbn in Hraise; try (injection Hraise as <-; discriminate).
      destruct data as [| | | | |l|b]; cbn in Hraise;
        try (injection Hraise as <-; discriminate).
      exists b. destruct (b !! "session") eqn:Hsession; [done|].
      by repeat split.
    + intros [?|(agent_id' & b & [= <-] & -> & Hsession)]; [done|].
      exists (KeyError (PStr "session")). cbn. by rewrite Hsession.
    + done.
    + intros (agent_id' & b & [= <-] & -> & Hsession). cbn.
      by rewrite Hsession.
  - split; [split|split; [done|]].
    + by left.
    + intros _. by exists (KeyError (PStr "id")).
    + by intros (? & ? & ? & _).
Qed.

(** X6. A body that parses to something other than an object has no entries
    to look up: the subscription raises [TypeError], not [KeyError]. *)
Lemma create_session_body_not_object agent w (d : gmap string pyval)
    (agent_id data : pyval) :
  objects w !! agent = Some (PDict d) →
  d !! "id" = Some agent_id →
  net (_http (self w)) (sent w)
      (POST "/sessions" (PDict {["agent_id" := agent_id]}))
    = Answered (Json data) →
  (∀ b : gmap string pyval, data ≠ PDict b) →
  (create_session net agent w).1 = Raise TypeError.
Proof.
  intros Hagent Hid Hnet Hshape. rewrite create_session_run, Hagent. cbn.
  rewrite Hid. cbv zeta. rewrite Hnet. cbn.
  destruct data as [| | | | | |b]; try done. by destruct (Hshape b).
Qed.

(** ** Relations between calls *)

(** C6. Two calls of [find_agent] with the same name, one after the other:
    when the transport answers the second request as it answered the first,
    the two outcomes are equal.  Nothing is cached: the second call puts its
    own request on the wire, and its outcome is the outcome of a call made
    from any other world, with any other history, in which the transport
    gives the same answer. *)
Theorem find_agent_twice name w :
  let http := _http (self w) in
  let req := GET "/agents" (PDict {["name" := PStr name]}) in
  let first := find_agent net name w in
  let second := find_agent net name first.2 in
  (net http (sent first.2) req = net http (sent w) req → second.1 = first.1) ∧
  sent second.2 = sent w ++ [(http, req); (http, req)] ∧
  ∀ w', net (_http (self w')) (sent w') req = net http (sent first.2) req →
        (find_agent net name w').1 = second.1.
Proof.
  intros http req first second.
  assert (Hself : _http (self first.2) = http).
  { subst first. rewrite find_agent_run. cbv zeta.
    by destruct (net _ _ _). }
  assert (Hsent : sent first.2 = sent w ++ [(http, req)]).
  { subst first. rewrite find_agent_run. cbv zeta.
    by destruct (net _ _ _). }
  subst second. split_and!.
  - intros Hsame. rewrite (find_agent_run name first.2). cbv zeta.
    rewrite Hself. fold req. rewrite Hsame.
    subst first. rewrite find_agent_run. cbv zeta. fold http req.
    by destruct (net http (sent w) req).
  - rewrite (find_agent_run name first.2). cbv zeta.
    rewrite Hself, Hsent. fold req.
    destruct (net http _ req); cbn; by rewrite <- app_assoc.
  - intros w' Hsame. rewrite (find_agent_run name w'),
      (find_agent_run name first.2). cbv zeta.
    rewrite Hself. fold req. rewrite Hsame.
    by destruct (net http (sent first.2) req).
Qed.

(** C7. Neither call changes the client or what the caller owns: after
    [find_agent] and after [create_session], whatever their outcome, the
    client object (so its [_http] attribute), the objects of the caller (so
    the agent mapping passed to [create_session]) and the number of
    sessions are what they were. *)
Theorem calls_change_no_local_state name agent w :
  let found := (find_agent net name w).2 in
  let created := (create_session net agent w).2 in
  (self found = self w ∧ objects found = objects w ∧
   sessions found = sessions w) ∧
  (self created = self w ∧ objects created = objects w ∧
   sessions created = sessions w) ∧
  objects created !! agent = objects w !! agent.
Proof.
  assert (Hcreated : self (create_session net agent w).2 = self w ∧
                     objects (create_session net agent w).2 = objects w ∧
                     sessions (create_session net agent w).2 = sessions w).
  { rewrite create_session_run. cbv zeta.
    destruct (objects w !! agent) as [mapping|]; [|done].
    destruct (getitem mapping (SStr "id")) as [agent_id|e]; [|done].
    by destruct (net _ _ _). }
  cbv zeta. split_and!; try apply Hcreated.
  - rewrite find_agent_run. cbv zeta. by destruct (net _ _ _).
  - rewrite find_agent_run. cbv zeta. by destruct (net _ _ _).
  - rewrite find_agent_run. cbv zeta. by destruct (net _ _ _).
  - destruct Hcreated as (_ & -> & _). done.
Qed.

(** C8. The response acquired by a call is released when the call
    completes.  When the request of [find_agent] or of [create_session] is
    answered, the table of responses has one more slot after the call, and
    that slot is released, whether the call returned or its block raised;
    and in every case a call leaves the earlier slots as they were and
    leaves no slot of its own open. *)
Theorem response_released name agent w :
  let http := _http (self w) in
  (∀ body,
     net http (sent w) (GET "/agents" (PDict {["name" := PStr name]}))
       = Answered body →
     released (find_agent net name w).2 = released w ++ [true]) ∧
  (∀ mapping agent_id body,
     objects w !! agent = Some mapping →
     getitem mapping (SStr "id") = Return agent_id →
     net http (sent w) (POST "/sessions" (PDict {["agent_id" := agent_id]}))
       = Answered body →
     released (create_session net agent w).2 = released w ++ [true]) ∧
  (released (find_agent net name w).2 = released w ∨
   released (find_agent net name w).2 = released w ++ [true]) ∧
  (released (create_session net agent w).2 = released w ∨
   released (create_session net agent w).2 = released w ++ [true]).
Proof.
  intros http. rewrite find_agent_run, create_session_run. cbv zeta.
  fold http. split_and!.
  - by intros body ->.
  - by intros mapping agent_id body -> -> ->.
  - destruct (net http _ _); [by left|by right].
  - destruct (objects w !! agent) as [mapping|]; [|by left].
    destruct (getitem mapping (SStr "id")) as [agent_id|e]; [|by left].
    destruct (net http _ _); [by left|by right].
Qed.

(** C9. Only the ["id"] entry of the agent mapping flows into the call.
    Take two calls of [create_session], on two mappings that agree at
    ["id"], from two worlds that agree on the client, on what was sent and
    on the responses: the two calls have the same outcome, put the same
    request on the wire and leave the same responses.  The other entries of
    the mappings, and the other objects of the caller, make no
    difference. *)
Theorem create_session_reads_only_id w1 w2 (agent1 agent2 : ref)
    (d1 d2 : gmap string pyval) :
  objects w1 !! agent1 = Some (PDict d1) →
  objects w2 !! agent2 = Some (PDict d2) →
  d1 !! "id" = d2 !! "id" →
  self w1 = self w2 →
  sent w1 = sent w2 →
  released w1 = released w2 →
  let call1 := create_session net agent1 w1 in
  let call2 := create_session net agent2 w2 in
  call1.1 = call2.1 ∧
  sent call1.2 = sent call2.2 ∧
  released call1.2 = released call2.2.
Proof.
  intros Hagent1 Hagent2 Hid Hself Hsent Hreleased call1 call2.
  subst call1 call2. rewrite !create_session_run, Hagent1, Hagent2.
  cbn. rewrite Hid, Hself, Hsent, Hreleased.
  destruct (d2 !! "id") as [agent_id|]; [|done].
  by destruct (net _ _ _).
Qed.

End Properties.

(** C10. [find_agent] returns the first element of the ["agents"] array
    unconditionally: whatever that element is, and whatever its ["name"],
    when the body of the response is an object whose ["agents"] is a
    non-empty array the call returns the first element of that array.  The
    name asked for reaches the transport and nothing else: two calls with
    different names that get the same answer have the same outcome.  And
    there is an answer whose first agent has a ["name"] that is not the
    name asked for, and that agent is returned all the same: asked for
    ["claude"], a transport that answers with the one agent named
    ["gpt4"] makes [find_agent] return that agent. *)
Theorem find_agent_does_not_match_name :
  (∀ (net : transport) (name : string) (w : world)
     (d : gmap string pyval) (first : pyval) (rest : list pyval),
     net (_http (self w)) (sent w)
         (GET "/agents" (PDict {["name" := PStr name]}))
       = Answered (Json (PDict d)) →
     d !! "agents" = Some (PList (first :: rest)) →
     (find_agent net name w).1 = Return first) ∧
  (∀ (net : transport) (name1 name2 : string) (w : world),
     net (_http (self w)) (sent w)
         (GET "/agents" (PDict {["name" := PStr name1]}))
     = net (_http (self w)) (sent w)
         (GET "/agents" (PDict {["name" := PStr name2]})) →
     (find_agent net name1 w).1 = (find_agent net name2 w).1) ∧
  ∃ (net : transport) (name : string) (w : world)
    (d : gmap string pyval) (first : pyval) (rest : list pyval) (n : string),
    net (_http (self w)) (sent w)
        (GET "/agents" (PDict {["name" := PStr name]}))
      = Answered (Json (PDict d)) ∧
    d !! "agents" = Some (PList (first :: rest)) ∧
    getitem first (SStr "name") = Return (PStr n) ∧
    n ≠ name ∧
    (find_agent net name w).1 = Return first.
Proof.
  split_and!.
  - intros net name w d first rest Hnet Hagents.
    rewrite find_agent_run. cbv zeta. rewrite Hnet. cbn.
    by rewrite Hagents.
  - intros net name1 name2 w Hsame. rewrite !find_agent_run. cbv zeta.
    rewrite Hsame. clear Hsame. by destruct (net _ _ _).
  - exists (MockClientSession responses), "claude", (test_world PNone),
      {["agents" := PList [mock_agent]]}, mock_agent, [], "gpt4".
    split_and!; [reflexivity..|discriminate|reflexivity].
Qed.

(** ** The theorems on the transport of the acceptance test *)

(** [find_agent("gpt4")] on the test's responses returns [mock_agent]. *)
Lemma find_agent_first_agent_witness :
  MockClientSession responses 0%nat []
    (GET "/agents" (PDict {["name" := PStr "gpt4"]}))
    = Answered (Json (PDict {["agents" := PList [mock_agent]]})) ∧
  (find_agent (MockClientSession responses) "gpt4" (test_world PNone)).1
    = Return mock_agent.
Proof.
  split; [reflexivity|].
  exact (proj2 (find_agent_first_agent (MockClientSession responses) "gpt4"
                  (test_world PNone))
           {["agents" := PList [mock_agent]]} mock_agent [] eq_refl eq_refl).
Defined.

(** An empty ["agents"] array: [IndexError]. *)
Lemma find_agent_no_agents_witness :
  ∃ e : exn,
    (find_agent (MockClientSession {["get" := PDict {["agents" := PList []]}]})
       "gpt4" (test_world PNone)).1 = Raise e ∧
    is_LookupError e = true.
Proof.
  destruct (find_agent_no_agents
              (MockClientSession {["get" := PDict {["agents" := PList []]}]})
              "gpt4" (test_world PNone) {["agents" := PList []]})
    as (e & Hraise & Hclass & _).
  - reflexivity.
  - left. reflexivity.
  - exists e. split; [exact Hraise|exact Hclass].
Defined.

(** [create_session(mock_agent)] on the test's responses posts
    [{"agent_id": "test-agent-1"}] and returns [mock_session]. *)
Lemma create_session_returns_session_witness :
  sent (create_session (MockClientSession responses) 0%nat
          (test_world mock_agent)).2
    = [(0%nat, POST "/sessions" (PDict {["agent_id" := PStr "test-agent-1"]}))] ∧
  (create_session (MockClientSession responses) 0%nat
     (test_world mock_agent)).1 = Return mock_session.
Proof.
  pose proof (create_session_returns_session (MockClientSession responses)
                0%nat (test_world mock_agent) _ (PStr "test-agent-1")
                eq_refl eq_refl) as [Hsent Hreturn].
  split; [exact Hsent|].
  exact (Hreturn {["session" := mock_session]} mock_session eq_refl eq_refl).
Defined.

(** An agent mapping with a name and no id: nothing is sent. *)
Lemma create_session_missing_id_sends_nothing_witness :
  create_session (MockClientSession responses) 0%nat
    (test_world (PDict {["name" := PStr "gpt4"]}))
  = (Raise (KeyError (PStr "id")),
     test_world (PDict {["name" := PStr "gpt4"]})).
Proof.
  exact (proj1 (create_session_missing_id_sends_nothing
                  (MockClientSession responses) 0%nat
                  (test_world (PDict {["name" := PStr "gpt4"]}))
                  {["name" := PStr "gpt4"]} eq_refl eq_refl)).
Defined.

(** A transport that answers every POST with [{}]: [KeyError('session')]. *)
Lemma create_session_KeyError_iff_witness :
  (create_session (MockClientSession ∅) 0%nat (test_world mock_agent)).1
  = Raise (KeyError (PStr "session")).
Proof.
  apply (create_session_KeyError_iff (MockClientSession ∅) 0%nat
           (test_world mock_agent) _ eq_refl).
  exists (PStr "test-agent-1"), ∅.
  split; [reflexivity|]. split; reflexivity.
Defined.

(** Twice [find_agent("gpt4")] on the test's responses. *)
Lemma find_agent_twice_witness :
  (find_agent (MockClientSession responses) "gpt4"
     (find_agent (MockClientSession responses) "gpt4" (test_world PNone)).2).1
  = (find_agent (MockClientSession responses) "gpt4" (test_world PNone)).1.
Proof.
  exact (proj1 (find_agent_twice (MockClientSession responses) "gpt4"
                  (test_world PNone)) eq_refl).
Defined.

(** The block of [find_agent] raises [IndexError] on an empty array, and
    the response is released all the same. *)
Lemma response_released_witness :
  (find_agent (MockClientSession {["get" := PDict {["agents" := PList []]}]})
     "gpt4" (test_world PNone)).1 = Raise IndexError ∧
  released
    (find_agent (MockClientSession {["get" := PDict {["agents" := PList []]}]})
       "gpt4" (test_world PNone)).2 = [true].
Proof.
  split; [reflexivity|].
  apply (proj1 (response_released
                  (MockClientSession {["get" := PDict {["agents" := PList []]}]})
                  "gpt4" 0%nat (test_world PNone))
           (Json (PDict {["agents" := PList []]}))).
  reflexivity.
Defined.

(** The agent of the test and a mapping that has nothing but its id. *)
Lemma create_session_reads_only_id_witness :
  (create_session (MockClientSession responses) 0%nat
     (test_world mock_agent)).1
  = (create_session (MockClientSession responses) 0%nat
       (test_world (PDict {["id" := PStr "test-agent-1"]}))).1.
Proof.
  edestruct (create_session_reads_only_id (MockClientSession responses)
               (test_world mock_agent)
               (test_world (PDict {["id" := PStr "test-agent-1"]}))
               0%nat 0%nat) as (Hsame & _);
    [vm_compute; reflexivity..|exact Hsame].
Defined.

(** Asked for ["claude"], the agent named ["gpt4"] is returned. *)
Lemma find_agent_does_not_match_name_witness :
  getitem mock_agent (SStr "name") = Return (PStr "gpt4") ∧
  (find_agent (MockClientSession responses) "claude" (test_world PNone)).1
    = Return mock_agent.
Proof.
  split; [reflexivity|].
  apply (proj1 find_agent_does_not_match_name (MockClientSession responses)
           "claude" (test_world PNone) {["agents" := PList [mock_agent]]}
           mock_agent []); reflexivity.
Defined.

(** C5, as the claim words it.  A body that parses to [null] lacks a
    ["session"] field, and [create_session] raises [TypeError], which is
    not of class [KeyError]: "exactly when ... the response body lacks a
    session field" does not hold of a body that is not an object. *)
Lemma create_session_KeyError_iff_counterexample :
  let net := answering (Json PNone) in
  let w := test_world mock_agent in
  ¬ ((∃ e : exn,
        (create_session net 0%nat w).1 = Raise e ∧ is_KeyError e = true) ↔
     (lacks_field mock_agent "id" ∨
      ∃ agent_id data : pyval,
        getitem mock_agent (SStr "id") = Return agent_id ∧
        net (_http (self w)) (sent w)
            (POST "/sessions" (PDict {["agent_id" := agent_id]}))
          = Answered (Json data) ∧
        lacks_field data "session")).
Proof.
  intros net w [_ Hback].
  destruct Hback as (e & Hraise & Hclass).
  - right. exists (PStr "test-agent-1"), PNone.
    split; [reflexivity|]. split; [reflexivity|]. exact I.
  - vm_compute in Hraise. injection Hraise as <-. discriminate Hclass.
Qed.

(** ** More on what the calls do *)

(** Subscription by 0 gives a value on a non-empty list, its first
    element, and on a non-empty string, its first character, and on
    nothing else. *)
Lemma getitem_0_returns (v x : pyval) :
  getitem v (SInt 0) = Return x ↔
  (∃ rest, v = PList (x :: rest)) ∨
  (∃ c s, v = PStr (String c s) ∧ x = PStr (String c "")).
Proof.
  split.
  - destruct v as [| | | |s|l|d]; cbn; try done.
    + destruct s as [|c s]; cbn; [done|]. intros [= <-]. right. by exists c, s.
    + destruct l as [|first rest]; cbn; [done|]. intros [= <-]. left.
      by exists rest.
  - intros [[rest ->]|(c & s & -> & ->)]; reflexivity.
Qed.

Lemma seq_index_0_cons {A : Type} (x : A) (l : list A) :
  seq_index (x :: l) 0 = Some x.
Proof. reflexivity. Qed.

Section Outcomes.

Context (net : transport).
Implicit Types (w : world) (name : string) (agent : ref).

(** X1. [find_agent] returns a value exactly when the request is answered with
    an object whose ["agents"] entry is a non-empty array or a non-empty
    string. *)
Theorem find_agent_returns_iff name w :
  (∃ v : pyval, (find_agent net name w).1 = Return v) ↔
  ∃ d : gmap string pyval,
    net (_http (self w)) (sent w)
        (GET "/agents" (PDict {["name" := PStr name]}))
      = Answered (Json (PDict d)) ∧
    ((∃ first rest, d !! "agents" = Some (PList (first :: rest))) ∨
     (∃ c s, d !! "agents" = Some (PStr (String c s)))).
Proof.
  rewrite find_agent_run. cbv zeta.
  destruct (net _ _ _) as [|[|data]]; cbn.
  - split; [by intros [v ?]|by intros (d & ? & _)].
  - split; [by intros [v ?]|by intros (d & ? & _)].
  - split.
    + intros [v Hv]. destruct data as [| | | | | |d]; try done.
      exists d. split; [done|]. cbn in Hv.
      destruct (d !! "agents") as [agents|]; [|done]. cbn in Hv.
      apply getitem_0_returns in Hv as [[rest ->]|(c & s & -> & _)].
      * left. by exists v, rest.
      * right. by exists c, s.
    + intros (d & [= ->] & [(first & rest & Hagents)|(c & s & Hagents)]);
        cbn; rewrite Hagents; cbn; eauto.
Qed.

(** X2. [create_session] returns a value exactly when its argument is a mapping
    with an ["id"] entry and the request is answered with an object that
    has a ["session"] entry. *)
Theorem create_session_returns_iff agent w (v : pyval) :
  objects w !! agent = Some v →
  (∃ session : pyval, (create_session net agent w).1 = Return session) ↔
  ∃ (d : gmap string pyval) (agent_id : pyval) (b : gmap string pyval),
    v = PDict d ∧
    d !! "id" = Some agent_id ∧
    net (_http (self w)) (sent w)
        (POST "/sessions" (PDict {["agent_id" := agent_id]}))
      = Answered (Json (PDict b)) ∧
    is_Some (b !! "session").
Proof.
  intros Hagent. rewrite create_session_run, Hagent. cbv zeta. split.
  - intros [session Hsession].
    destruct v as [| | | | | |d]; try done. cbn in Hsession.
    destruct (d !! "id") as [agent_id|] eqn:Hid; [|done].
    destruct (net _ _ _) as [|[|data]] eqn:Hnet; try done.
    destruct data as [| | | | | |b]; try done. cbn in Hsession.
    exists d, agent_id, b. split_and!; try done.
    destruct (b !! "session"); [by eexists|done].
  - intros (d & agent_id & b & -> & Hid & Hnet & [session Hsession]).
    cbn. rewrite Hid, Hnet. cbn. rewrite Hsession. by exists session.
Qed.

(** X5. A body that parses to something other than an object: the subscription
    by ["agents"] raises [TypeError], and the response is released. *)
Theorem find_agent_body_not_object name w (data : pyval) :
  net (_http (self w)) (sent w) (GET "/agents" (PDict {["name" := PStr name]}))
    = Answered (Json data) →
  (∀ d : gmap string pyval, data ≠ PDict d) →
  (find_agent net name w).1 = Raise TypeError ∧
  released (find_agent net name w).2 = released w ++ [true].
Proof.
  intros Hnet Hshape. rewrite find_agent_run. cbv zeta. rewrite Hnet. cbn.
  split; [|done].
  destruct data as [| | | | | |d]; try done. by destruct (Hshape d).
Qed.

(** X7. [find_agent] does not check that ["agents"] is an array.  A non-empty
    string there makes it return a string, where an agent mapping is
    expected; an empty string raises [IndexError]; an object raises
    [KeyError(0)]; [None], a boolean or a number raises [TypeError]. *)
Theorem find_agent_agents_not_array name w (d : gmap string pyval)
    (agents : pyval) :
  net (_http (self w)) (sent w) (GET "/agents" (PDict {["name" := PStr name]}))
    = Answered (Json (PDict d)) →
  d !! "agents" = Some agents →
  (∀ s, agents = PStr s → s ≠ "" →
        ∃ t, (find_agent net name w).1 = Return (PStr t)) ∧
  (agents = PStr "" → (find_agent net name w).1 = Raise IndexError) ∧
  (∀ d', agents = PDict d' →
         (find_agent net name w).1 = Raise (KeyError (PInt 0))) ∧
  (agents = PNone ∨ (∃ b, agents = PBool b) ∨ (∃ n, agents = PInt n) ∨
   (∃ x, agents = PFloat x) →
   (find_agent net name w).1 = Raise TypeError).
Proof.
  intros Hnet Hagents. rewrite find_agent_run. cbv zeta. rewrite Hnet. cbn.
  rewrite Hagents. cbn. split_and!.
  - intros s -> Hs. destruct s as [|c s]; [done|]. by eexists.
  - by intros ->.
  - by intros d' ->.
  - by intros [->|[[b ->]|[[n ->]|[x ->]]]].
Qed.

(** X8. An argument of [create_session] that is not a mapping (a list, a
    string, [None], a number): [agent["id"]] raises [TypeError] before
    anything is sent, and the world is left as it was. *)
Theorem create_session_agent_not_mapping agent w (v : pyval) :
  objects w !! agent = Some v →
  (∀ d : gmap string pyval, v ≠ PDict d) →
  create_session net agent w = (Raise TypeError, w).
Proof.
  intros Hagent Hshape. rewrite create_session_run, Hagent.
  destruct v as [| | | | | |d]; try done. by destruct (Hshape d).
Qed.

(** X9. Two calls of [create_session] on the same agent, one after the other:
    each puts its own POST on the wire, so the server is asked for two
    sessions; when the transport answers the second as the first, the two
    outcomes are equal. *)
Theorem create_session_twice agent w (d : gmap string pyval)
    (agent_id : pyval) :
  objects w !! agent = Some (PDict d) →
  d !! "id" = Some agent_id →
  let http := _http (self w) in
  let req := POST "/sessions" (PDict {["agent_id" := agent_id]}) in
  let first := create_session net agent w in
  let second := create_session net agent first.2 in
  sent second.2 = sent w ++ [(http, req); (http, req)] ∧
  (net http (sent w ++ [(http, req)]) req = net http (sent w) req →
   second.1 = first.1).
Proof.
  intros Hagent Hid http req first second.
  assert (Hfirst : first =
            match net http (sent w) req with
            | Refused =>
                (Raise TransportError,
                 {| self := self w; objects := objects w;
                    sessions := sessions w;
                    sent := sent w ++ [(http, req)];
                    released := released w |})
            | Answered body =>
                (data ← parse body; getitem data (SStr "session"),
                 {| self := self w; objects := objects w;
                    sessions := sessions w;
                    sent := sent w ++ [(http, req)];
                    released := released w ++ [true] |})
            end).
  { subst first. rewrite create_session_run, Hagent. cbn. by rewrite Hid. }
  assert (Hworld : self first.2 = self w ∧ objects first.2 = objects w ∧
                   sent first.2 = sent w ++ [(http, req)]).
  { rewrite Hfirst. by destruct (net http (sent w) req). }
  destruct Hworld as (Hself & Hobjects & Hsent).
  subst second. rewrite (create_session_run net agent first.2).
  rewrite Hobjects, Hagent, Hself, Hsent. cbn. rewrite Hid. cbv zeta.
  fold http req. split.
  - destruct (net http (sent w ++ [(http, req)]) req); cbn;
      by rewrite <- app_assoc.
  - intros ->. rewrite Hfirst. by destruct (net http (sent w) req).
Qed.

(** ** The constructor *)

Lemma init_run (http_client : option ClientSession) w :
  __init__ http_client w =
  match http_client with
  | Some http => (Return tt, set_self {| _http := http |} w)
  | None =>
      (Return tt,
       set_self {| _http := sessions w |} (set_sessions (S (sessions w)) w))
  end.
Proof. by destruct http_client. Qed.

(** X10. A client built on a session it was given sends through that session
    and creates none; a client built without one sends through a session
    made for it.  Building a client sends nothing. *)
Theorem init_session_is_used (http_client : option ClientSession) name w :
  let built := (__init__ http_client w).2 in
  let http := default (sessions w) http_client in
  sent built = sent w ∧
  sent (find_agent net name built).2
    = sent w ++ [(http, GET "/agents" (PDict {["name" := PStr name]}))] ∧
  (is_Some http_client → sessions built = sessions w) ∧
  (http_client = None → sessions built = S (sessions w)).
Proof.
  intros built http. subst built. rewrite find_agent_run, init_run.
  destruct http_client as [given|]; cbn; split_and!; try done;
    try (by destruct (net _ _ _)); by intros [? ?].
Qed.

(** X11. Clients built without a session do not share one: the session made for
    the second differs from the one made for the first, and from every
    session that existed before. *)
Theorem init_default_sessions_distinct w :
  let first := (__init__ None w).2 in
  let second := (__init__ None first).2 in
  _http (self first) ≠ _http (self second) ∧
  ∀ http : ClientSession,
    (http < sessions w)%nat →
    _http (self first) ≠ http ∧ _http (self second) ≠ http.
Proof.
  intros first second. subst second first. rewrite !init_run. cbn.
  split; [lia|]. intros http Hlt. lia.
Qed.

(** ** Callers *)

Lemma discover_and_create_run (http : ClientSession) name w :
  discover_and_create net http name w =
  match find_agent net name (set_self {| _http := http |} w) with
  | (Return found, w1) =>
      let r := fresh (dom (objects w1)) in
      match create_session net r
              (set_objects (<[r := found]> (objects w1)) w1) with
      | (Return session, w2) => (Return (found, session), w2)
      | (Raise e, w2) => (Raise e, w2)
      end
  | (Raise e, w1) => (Raise e, w1)
  end.
Proof.
  unfold discover_and_create. rewrite bind_run, init_run, bind_run.
  destruct (find_agent net name _) as [[found|e] w1]; [|done].
  rewrite bind_run. unfold new_object at 1. cbv zeta. rewrite bind_run.
  by destruct (create_session net _ _) as [[session|e] w2].
Qed.

(** X12. The three calls go through: when the GET is answered with an object
    whose first agent is a mapping with an ["id"], and the POST that
    follows, seen by the transport after the GET, is answered with an
    object that has a ["session"], the caller gets that agent and that
    session; the GET and then the POST carrying the id of that agent are
    all that was sent, both responses are released, and the agent is the
    one new object of the caller. *)
Theorem discover_and_create_success (http : ClientSession) name w
    (d a b : gmap string pyval) (rest : list pyval)
    (agent_id session : pyval) :
  let get := GET "/agents" (PDict {["name" := PStr name]}) in
  let post := POST "/sessions" (PDict {["agent_id" := agent_id]}) in
  net http (sent w) get = Answered (Json (PDict d)) →
  d !! "agents" = Some (PList (PDict a :: rest)) →
  a !! "id" = Some agent_id →
  net http (sent w ++ [(http, get)]) post = Answered (Json (PDict b)) →
  b !! "session" = Some session →
  let run := discover_and_create net http name w in
  run.1 = Return (PDict a, session) ∧
  sent run.2 = sent w ++ [(http, get); (http, post)] ∧
  released run.2 = released w ++ [true; true] ∧
  ∃ r : ref, objects w !! r = None ∧
             objects run.2 = <[r := PDict a]> (objects w).
Proof.
  intros get post Hget Hagents Hid Hpost Hsession run. subst run.
  rewrite discover_and_create_run, find_agent_run. cbn.
  fold get. rewrite Hget. cbn. rewrite Hagents. cbn.
  rewrite seq_index_0_cons, create_session_run. cbn. rewrite lookup_insert_eq. cbn.
  rewrite Hid. fold post. rewrite Hpost. cbn. rewrite Hsession. cbn.
  split_and!; [done|by rewrite <- app_assoc|by rewrite <- app_assoc|].
  exists (fresh (dom (objects w))). split; [|done].
  apply not_elem_of_dom, is_fresh.
Qed.

(** X13. When [find_agent] raises, the caller gets that exception, and
    [create_session] is not reached: the GET is all that was sent, and the
    caller holds no new object. *)
Theorem discover_and_create_find_fails (http : ClientSession) name w
    (e : exn) :
  (find_agent net name (__init__ (Some http) w).2).1 = Raise e →
  let run := discover_and_create net http name w in
  run.1 = Raise e ∧
  sent run.2
    = sent w ++ [(http, GET "/agents" (PDict {["name" := PStr name]}))] ∧
  objects run.2 = objects w.
Proof.
  intros Hfind run. subst run. rewrite init_run in Hfind. cbn in Hfind.
  rewrite discover_and_create_run. revert Hfind.
  rewrite find_agent_run. cbn.
  destruct (net http _ _) as [|body]; cbn; [by intros [= <-]|].
  by intros ->.
Qed.

(** X14. When [find_agent] returns something on which ["id"] cannot be looked
    up (a mapping without ["id"], or a string, as [find_agent] can
    return), the caller gets the exception of that lookup, and no POST is
    sent: the GET is all that is on the wire. *)
Theorem discover_and_create_no_id (http : ClientSession) name w
    (found : pyval) (e : exn) :
  (find_agent net name (__init__ (Some http) w).2).1 = Return found →
  getitem found (SStr "id") = Raise e →
  let run := discover_and_create net http name w in
  run.1 = Raise e ∧
  sent run.2
    = sent w ++ [(http, GET "/agents" (PDict {["name" := PStr name]}))].
Proof.
  intros Hfind Hid run. subst run. rewrite init_run in Hfind. cbn in Hfind.
  rewrite discover_and_create_run. revert Hfind.
  rewrite find_agent_run. cbn.
  destruct (net http _ _) as [|body]; cbn; [done|]. intros ->.
  rewrite create_session_run. cbn. rewrite lookup_insert_eq. cbn.
  by rewrite Hid.
Qed.

(** ** Any number of calls *)

Lemma run_call_step (c : call) w :
  let w' := (run_call net c w).2 in
  self w' = self w ∧ objects w' = objects w ∧ sessions w' = sessions w ∧
  ((sent w' = sent w ∧ released w' = released w) ∨
   ∃ req : request,
     ((∃ params, req = GET "/agents" params) ∨
      (∃ body, req = POST "/sessions" body)) ∧
     sent w' = sent w ++ [(_http (self w), req)] ∧
     (released w' = released w ∨ released w' = released w ++ [true])).
Proof.
  destruct c as [name|agent]; cbn.
  - rewrite find_agent_run. cbv zeta.
    destruct (net _ _ _); cbn; split_and!; try done; right;
      eexists; (split; [left; by eexists|]); split; auto.
  - rewrite create_session_run. cbv zeta.
    destruct (objects w !! agent) as [mapping|]; [|by split_and!; auto].
    destruct (getitem mapping (SStr "id")) as [agent_id|e];
      [|by split_and!; auto].
    destruct (net _ _ _); cbn; split_and!; try done; right;
      eexists; (split; [right; by eexists|]); split; auto.
Qed.

(** X15. Whatever calls a caller makes, and whatever they return or raise, the
    client object, the objects of the caller and the sessions that exist
    are never changed. *)
Theorem run_calls_frame (cs : list call) w :
  self (run_calls net cs w) = self w ∧
  objects (run_calls net cs w) = objects w ∧
  sessions (run_calls net cs w) = sessions w.
Proof.
  revert w. induction cs as [|c cs IH]; intros w; [done|]. cbn.
  destruct (IH (run_call net c w).2) as (-> & -> & ->).
  by destruct (run_call_step c w) as (? & ? & ? & _).
Qed.

(** X16. Whatever calls a caller makes: what was sent before stays as it was;
    at most one request is added per call, each through the session of
    the client, and each a GET of ["/agents"] or a POST of ["/sessions"];
    no more responses are acquired than requests sent, and every one of
    them is released. *)
Theorem run_calls_traffic (cs : list call) w :
  ∃ (reqs : list request) (k : nat),
    sent (run_calls net cs w)
      = sent w ++ ((λ req, (_http (self w), req)) <$> reqs) ∧
    released (run_calls net cs w) = released w ++ replicate k true ∧
    (k ≤ length reqs ≤ length cs)%nat ∧
    Forall (λ req, (∃ params, req = GET "/agents" params) ∨
                   (∃ body, req = POST "/sessions" body)) reqs.
Proof.
  revert w. induction cs as [|c cs IH]; intros w.
  - exists [], 0%nat. cbn. by rewrite !app_nil_r.
  - cbn. destruct (IH (run_call net c w).2) as (reqs & k & -> & -> & Hk & Hreqs).
    destruct (run_call_step c w)
      as (-> & _ & _ & [[-> ->]|(req & Hreq & -> & Hreleased)]).
    + exists reqs, k. split_and!; try done; lia.
    + destruct Hreleased as [->| ->].
      * exists (req :: reqs), k. cbn.
        rewrite <- app_assoc. split_and!; try done; try lia.
        by constructor.
      * exists (req :: reqs), (S k). cbn.
        rewrite <- !app_assoc. split_and!; try done; try lia.
        by constructor.
Qed.

End Outcomes.

(** ** These theorems on the transport of the acceptance test and on failing
       transports *)

Lemma find_agent_returns_iff_witness :
  ∃ v : pyval,
    (find_agent (MockClientSession responses) "gpt4" (test_world PNone)).1
    = Return v.
Proof.
  apply (find_agent_returns_iff (MockClientSession responses) "gpt4"
           (test_world PNone)).
  exists {["agents" := PList [mock_agent]]}. split; [reflexivity|].
  left. exists mock_agent, []. reflexivity.
Defined.

Lemma create_session_returns_iff_witness :
  ∃ session : pyval,
    (create_session (MockClientSession responses) 0%nat
       (test_world mock_agent)).1 = Return session.
Proof.
  eapply (create_session_returns_iff (MockClientSession responses) 0%nat
            (test_world mock_agent)); [reflexivity|].
  eexists _, (PStr "test-agent-1"), {["session" := mock_session]}.
  split; [reflexivity|]. split; [reflexivity|]. split; [reflexivity|].
  exists mock_session. reflexivity.
Defined.

Lemma find_agent_body_not_object_witness :
  (find_agent (answering (Json (PList [mock_agent]))) "gpt4"
     (test_world PNone)).1 = Raise TypeError.
Proof.
  apply (find_agent_body_not_object (answering (Json (PList [mock_agent])))
           "gpt4" (test_world PNone) (PList [mock_agent])).
  - reflexivity.
  - intros d. discriminate.
Defined.

Lemma create_session_body_not_object_witness :
  (create_session (answering (Json PNone)) 0%nat (test_world mock_agent)).1
  = Raise TypeError.
Proof.
  eapply (create_session_body_not_object (answering (Json PNone)) 0%nat
            (test_world mock_agent)).
  - reflexivity.
  - reflexivity.
  - reflexivity.
  - intros b. discriminate.
Defined.

(** ["agents"] is the string ["gpt4"]: what is returned is a string. *)
Lemma find_agent_agents_not_array_witness :
  ∃ t : string,
    (find_agent (answering (Json (PDict {["agents" := PStr "gpt4"]}))) "gpt4"
       (test_world PNone)).1 = Return (PStr t).
Proof.
  destruct (find_agent_agents_not_array
              (answering (Json (PDict {["agents" := PStr "gpt4"]}))) "gpt4"
              (test_world PNone) {["agents" := PStr "gpt4"]} (PStr "gpt4"))
    as (Hstring & _); [reflexivity..|].
  apply (Hstring "gpt4"); [reflexivity|discriminate].
Defined.

(** The name of the agent passed where the agent is expected. *)
Lemma create_session_agent_not_mapping_witness :
  create_session (MockClientSession responses) 0%nat (test_world (PStr "gpt4"))
  = (Raise TypeError, test_world (PStr "gpt4")).
Proof.
  apply (create_session_agent_not_mapping (MockClientSession responses) 0%nat
           (test_world (PStr "gpt4")) (PStr "gpt4")).
  - reflexivity.
  - intros d. discriminate.
Defined.

Lemma create_session_twice_witness :
  (create_session (MockClientSession responses) 0%nat
     (create_session (MockClientSession responses) 0%nat
        (test_world mock_agent)).2).1
  = (create_session (MockClientSession responses) 0%nat
       (test_world mock_agent)).1.
Proof.
  edestruct (create_session_twice (MockClientSession responses) 0%nat
               (test_world mock_agent)) as (_ & Hsame);
    [vm_compute; reflexivity..|].
  apply Hsame. reflexivity.
Defined.

Lemma init_session_is_used_witness :
  sessions (__init__ (Some 0%nat) (test_world PNone)).2 = 1%nat.
Proof.
  apply (init_session_is_used refusing (Some 0%nat) "gpt4" (test_world PNone)).
  exists 0%nat. reflexivity.
Defined.

Lemma init_default_sessions_distinct_witness :
  _http (self (__init__ None (test_world PNone)).2) ≠ 0%nat.
Proof.
  apply (init_default_sessions_distinct (test_world PNone)).
  vm_compute. reflexivity.
Defined.

Lemma discover_and_create_success_witness :
  (discover_and_create (MockClientSession responses) 0%nat "gpt4"
     (test_world PNone)).1 = Return (mock_agent, mock_session).
Proof.
  edestruct (discover_and_create_success (MockClientSession responses) 0%nat
               "gpt4" (test_world PNone)) as (Hreturn & _);
    [vm_compute; reflexivity..|exact Hreturn].
Defined.

Lemma discover_and_create_find_fails_witness :
  sent (discover_and_create refusing 0%nat "gpt4" (test_world PNone)).2
  = [(0%nat, GET "/agents" (PDict {["name" := PStr "gpt4"]}))].
Proof.
  apply (discover_and_create_find_fails refusing 0%nat "gpt4"
           (test_world PNone) TransportError).
  reflexivity.
Defined.

(** The one agent has a name and no id. *)
Lemma discover_and_create_no_id_witness :
  (discover_and_create
     (answering (Json (PDict {["agents" :=
                                 PList [PDict {["name" := PStr "gpt4"]}]]})))
     0%nat "gpt4" (test_world PNone)).1
  = Raise (KeyError (PStr "id")).
Proof.
  apply (discover_and_create_no_id
           (answering (Json (PDict {["agents" :=
                                       PList [PDict {["name" := PStr "gpt4"]}]]})))
           0%nat "gpt4" (test_world PNone) (PDict {["name" := PStr "gpt4"]}));
    reflexivity.
Defined.
